(** * Savitzky-Golay temperature smoothing: the filter core and its sensor adapter

    A shallow embedding of [temperature_smoothing.py].

    Numeric model.
    - Python [int] is [Z] (unbounded, floor division and floor modulo).
    - [smooth_time] and [REPORT_TIME] are binary64 floats ([PrimFloat]); the
      quotient [smooth_time / REPORT_TIME] and [math.ceil] are computed
      bit-exactly, so the derived frame length is the one Python derives.
    - The contents of numpy arrays (samples, coefficients, smoothed values)
      are elements of an ordered field [F]: float64 arithmetic is idealised
      as exact arithmetic, and [np.linalg.pinv] as the Moore-Penrose
      pseudo-inverse it approximates. *)

From Stdlib Require Import ZArith Lia Floats.
From mathcomp Require Import boot order algebra binnums.
Import Order.Theory GRing.Theory Num.Theory.

Set Implicit Arguments.
Unset Strict Implicit.
Unset Printing Implicit Defensive.

Delimit Scope Z_scope with ZZ.

(** ** Exceptions and the error monad *)

Inductive exn : Set :=
  | TypeError      (* raise TypeError("smooth_time is too short ...") *)
  | ValueError     (* math.ceil(nan), np.convolve on an empty array, ... *)
  | OverflowError  (* math.ceil(inf) *)
  | IndexError.    (* index out of range *)

Definition result (T : Type) : Type := (exn + T)%type.

Definition ret {T : Type} (x : T) : result T := inr x.
Definition raise {T : Type} (e : exn) : result T := inl e.

Definition bind {T U : Type} (m : result T) (k : T -> result U) : result U :=
  match m with
  | inl e => inl e
  | inr x => k x
  end.

Notation "x <- m ;; k" := (bind m (fun x => k))
  (at level 61, m at next level, right associativity).

Definition succeeds {T : Type} (m : result T) : bool :=
  if m is inr _ then true else false.

(** ** Python and numpy primitives used by the source *)

Module Py.

(** [math.ceil] on a float: exact on finite values, [ValueError] on NaN,
    [OverflowError] on an infinity.  A finite float is [(-1)^s * m * 2^e]. *)
Definition math_ceil (x : float) : result Z :=
  match Prim2SF x with
  | S754_zero _ => ret 0%ZZ
  | S754_infinity _ => raise OverflowError
  | S754_nan => raise ValueError
  | S754_finite s m e =>
      let n := if s then Z.neg m else Z.pos m in
      ret (if (0 <=? e)%ZZ then (n * 2 ^ e)%ZZ
           else (- ((- n) / 2 ^ (- e)))%ZZ)
  end.

(** [range(lo, hi)]. *)
Definition range (lo hi : Z) : seq Z :=
  [seq (lo + Z.of_nat i)%ZZ | i <- iota 0 (Z.to_nat (hi - lo))].

(** A slice bound [b] of a sequence of length [len]: negative bounds count
    from the end, every bound is clamped to [0, len]; [None] is an omitted
    bound, whose default [dflt] is [0] on the left and [len] on the right. *)
Definition norm_bound (len : Z) (dflt : Z) (b : option Z) : Z :=
  match b with
  | None => dflt
  | Some i => if (i <? 0)%ZZ then Z.max (i + len) 0 else Z.min i len
  end.

Definition slice_start {T : Type} (lo : option Z) (l : seq T) : nat :=
  Z.to_nat (norm_bound (Z.of_nat (size l)) 0 lo).

Definition slice_stop {T : Type} (hi : option Z) (l : seq T) : nat :=
  let len := Z.of_nat (size l) in Z.to_nat (norm_bound len len hi).

(** [l[lo:hi]]. *)
Definition slice {T : Type} (lo hi : option Z) (l : seq T) : seq T :=
  take (slice_stop hi l - slice_start lo l) (drop (slice_start lo l) l).

(** Position of index [i] in a sequence of length [len], if in range. *)
Definition index_pos (len : nat) (i : Z) : result nat :=
  let j := if (i <? 0)%ZZ then (i + Z.of_nat len)%ZZ else i in
  if ((0 <=? j) && (j <? Z.of_nat len))%ZZ then ret (Z.to_nat j)
  else raise IndexError.

(** [l[i]]. *)
Definition getitem {T : Type} (x0 : T) (l : seq T) (i : Z) : result T :=
  p <- index_pos (size l) i ;; ret (nth x0 l p).

(** [a[i] = x] on an array. *)
Definition setitem {T : Type} (l : seq T) (i : Z) (x : T) : result (seq T) :=
  p <- index_pos (size l) i ;; ret (take p l ++ x :: drop p.+1 l).

(** [a[lo:hi] = src] on a numpy array: the array keeps its length, so the
    source must have the length of the slice (numpy would also broadcast a
    one-element source; the smoother never assigns one to a longer slice). *)
Definition setslice {T : Type} (l : seq T) (lo hi : option Z) (src : seq T)
  : result (seq T) :=
  let a := slice_start lo l in
  let n := slice_stop hi l - a in
  if size src == n then ret (take a l ++ src ++ drop (a + n) l)
  else raise ValueError.

End Py.

(** ** Arrays of floats, matrices and the numpy operations *)

Local Open Scope ring_scope.

Section Numpy.

Variable F : realFieldType.

(** A Python integer stored in a float array. *)
Definition ZtoF (z : Z) : F := (int_of_Z z)%:~R.

(** [np.mat(rows)] for a rectangular nested list of integers. *)
Definition np_mat (rows : seq (seq Z)) : 'M[F]_(size rows, size (head [::] rows)) :=
  \matrix_(i, j) ZtoF (nth 0%ZZ (nth [::] rows i) j).

(** [np.linalg.pinv]: the Moore-Penrose pseudo-inverse, from a full-rank
    factorisation [A = C *m R] as [R^T (R R^T)^-1 (C^T C)^-1 C^T]. *)
Definition pinv (m n : nat) (A : 'M[F]_(m, n)) : 'M[F]_(n, m) :=
  let C := col_base A in
  let R := row_base A in
  R^T *m invmx (R *m R^T) *m invmx (C^T *m C) *m C^T.

(** [M.A[i]] for [i >= 0]: row [i] of a matrix as a one-dimensional array. *)
Definition mx_row (m n : nat) (A : 'M[F]_(m, n)) (i : nat) : result (seq F) :=
  if insub i : option 'I_m is Some r then ret [seq A r j | j <- enum 'I_n]
  else raise IndexError.

(** [np.correlate(a, v, mode="valid")] for [len(v) <= len(a)]. *)
Definition correlate_valid (a v : seq F) : seq F :=
  [seq \sum_(0 <= j < size v) nth 0 a (k + j)%N * nth 0 v j
  | k <- iota 0 (size a - size v).+1%N].

(** [np.convolve(a, v, mode="valid")]: the longer argument comes first, empty
    arguments are rejected, and the shorter one is reversed and correlated. *)
Definition convolve_valid (a v : seq F) : result (seq F) :=
  let: (a, v) := if (size a < size v)%N then (v, a) else (a, v) in
  if size a == 0%N then raise ValueError
  else if size v == 0%N then raise ValueError
  else ret (correlate_valid a (rev v)).

End Numpy.

Definition REPORT_TIME : float := 0.300%float.

Module SavitzkyGolaySmoother.

Section Smoother.

Variable F : realFieldType.

Record t : Type := Make {
  frame_length : Z;
  window_length : Z;
  _values : seq F;
  coeff_m : seq F
}.

Definition __init__ (order : Z) (smooth_time : float) : result t :=
  c <- Py.math_ceil (smooth_time / REPORT_TIME)%float ;;
  let frame_length := Z.max order c in
  let frame_length :=
    if (frame_length mod 2 =? 0)%ZZ then (frame_length + 1)%ZZ
    else frame_length in
  if (frame_length <? order + 2)%ZZ then raise TypeError
  else
    let window_length := ((frame_length - 1) / 2)%ZZ in
    let values := nseq (Z.to_nat frame_length) (0 : F) in
    let rows :=
      [seq [seq (k ^ i)%ZZ | i <- Py.range 0 (order + 1)]
      | k <- Py.range (- window_length) (window_length + 1)] in
    coeff <- mx_row (pinv (np_mat F rows)) 0 ;;
    ret (Make frame_length window_length values coeff).

(** Methods return the instance after the call next to their value. *)

Definition reset (self : t) (temp : F) : result t :=
  if (frame_length self <? 0)%ZZ then raise ValueError
  else
    ret (Make (frame_length self) (window_length self)
           (nseq (Z.to_nat (frame_length self)) temp) (coeff_m self)).

Definition update (self : t) (temp : F) : result t :=
  let values := _values self in
  values <- Py.setslice values None (Some (-1)%ZZ)
              (Py.slice (Some 1%ZZ) None values) ;;
  values <- Py.setitem values (-1)%ZZ temp ;;
  ret (Make (frame_length self) (window_length self) values (coeff_m self)).

Definition pad_left (self : t) : result (seq F) :=
  let values := _values self in
  let w := window_length self in
  v0 <- Py.getitem 0 values 0%ZZ ;;
  ret [seq v0 - `|x - v0| | x <- rev (Py.slice (Some 1%ZZ) (Some (w + 1)%ZZ) values)].

Definition pad_right (self : t) : result (seq F) :=
  let values := _values self in
  let w := window_length self in
  vl <- Py.getitem 0 values (-1)%ZZ ;;
  ret [seq vl + `|x - vl|
      | x <- rev (Py.slice (Some (- w - 1)%ZZ) (Some (-1)%ZZ) values)].

Definition smooth (self : t) : result (t * seq F) :=
  pl <- pad_left self ;;
  pr <- pad_right self ;;
  out <- convolve_valid (rev (coeff_m self)) (pl ++ _values self ++ pr) ;;
  ret (self, out).

End Smoother.
End SavitzkyGolaySmoother.

Module PrinterSensorSmoothed.

Import SavitzkyGolaySmoother.

Section Adapter.

Variable F : archiRealFieldType.

(** [np.rint]: the nearest integer, ties to the even one. *)
Definition rint (x : F) : int :=
  let f := Num.floor x in
  let d := x - f%:~R in
  if d < 2^-1 then f
  else if 2^-1 < d then f + 1
  else if odd `|f|%N then f + 1 else f.

(** [round(x, ndigits)] on a numpy float: scale, [rint], scale back. *)
Definition round (x : F) (ndigits : nat) : F :=
  (rint (x * 10 ^+ ndigits))%:~R / 10 ^+ ndigits.

(** The adapter's state: the wrapped sensor is its [temperature] status as a
    function of the event time. *)
Record t : Type := Make {
  last_temp : F;
  min_temp : F;
  max_temp : F;
  unsmoothed_sensor : float -> F;
  smoother : SavitzkyGolaySmoother.t F
}.

Definition set_smoother (self : t) (s : SavitzkyGolaySmoother.t F) : t :=
  Make (last_temp self) (min_temp self) (max_temp self)
    (unsmoothed_sensor self) s.

Definition set_last_temp (self : t) (temp : F) : t :=
  Make temp (min_temp self) (max_temp self) (unsmoothed_sensor self)
    (smoother self).

Definition _handle_ready (self : t) (now : float) : result t :=
  s <- reset (smoother self) (unsmoothed_sensor self now) ;;
  ret (set_smoother self s).

Definition get_report_time_delta (self : t) : float := REPORT_TIME.

Definition apply_smoothing (self : t) : result (t * F) :=
  r <- smooth (smoother self) ;;
  let: (s, values) := r in
  v <- Py.getitem 0 values (-1)%ZZ ;;
  ret (set_smoother self s, round v 2).

Definition update_temp (self : t) (eventtime : float) : result t :=
  s <- update (smoother self) (unsmoothed_sensor self eventtime) ;;
  r <- apply_smoothing (set_smoother self s) ;;
  let: (self, temp) := r in
  if temp != 0 then ret (set_last_temp self temp) else ret self.

Definition get_temp (self : t) (eventtime : float) : F * F :=
  (last_temp self, 0).

Definition get_status (self : t) (eventtime : float) : F :=
  round (last_temp self) 2.

End Adapter.
End PrinterSensorSmoothed.

(** * Properties *)

Import SavitzkyGolaySmoother.

Ltac zsolve := intros; Z.div_mod_to_equations; lia.

Section Construction.

Variable F : realFieldType.

Lemma bind_inr (T U : Type) (m : result T) (k : T -> result U) (y : U) :
  bind m k = inr y -> exists2 x, m = inr x & k x = inr y.
Proof. by case: m => [e|x] //= kx; exists x. Qed.

Lemma mx_row_inr (m n : nat) (A : 'M[F]_(m, n)) (i : nat) (r : seq F) :
  mx_row A i = inr r ->
  exists2 k : 'I_m, i = k :> nat & r = [seq A k j | j <- enum 'I_n].
Proof.
rewrite /mx_row; case: insubP => [k _ ik [<-]|//].
by exists k.
Qed.

Lemma mx_row_ord (m n : nat) (A : 'M[F]_(m, n)) (k : 'I_m) :
  mx_row A k = inr [seq A k j | j <- enum 'I_n].
Proof.
rewrite /mx_row; case: insubP => [k' _ /val_inj -> //|].
by rewrite ltn_ord.
Qed.

Lemma size_range (lo hi : Z) : size (Py.range lo hi) = Z.to_nat (hi - lo).
Proof. by rewrite /Py.range size_map size_iota. Qed.

Lemma nth_range (lo hi : Z) (i : nat) :
  (i < Z.to_nat (hi - lo))%N -> nth 0%ZZ (Py.range lo hi) i = (lo + Z.of_nat i)%ZZ.
Proof.
by move=> ilt; rewrite /Py.range (nth_map 0%N) ?size_iota // nth_iota.
Qed.

(** The nested list handed to [np.mat] by the constructor. *)
Definition sg_rows (order w : Z) : seq (seq Z) :=
  [seq [seq (k ^ i)%ZZ | i <- Py.range 0 (order + 1)]
  | k <- Py.range (- w) (w + 1)].

Lemma size_sg_rows (order w : Z) : size (sg_rows order w) = Z.to_nat (2 * w + 1).
Proof. by rewrite size_map size_range; congr Z.to_nat; lia. Qed.

Lemma size_head_sg_rows (order w : Z) :
  (0 <= w)%ZZ -> size (head [::] (sg_rows order w)) = Z.to_nat (order + 1).
Proof.
move=> w0; rewrite /sg_rows.
have: (0 < size (Py.range (- w) (w + 1)))%N by rewrite size_range; apply/ssrnat.ltP; lia.
by case: (Py.range _ _) => //= k ks _; rewrite size_map size_range Z.sub_0_r.
Qed.

Lemma even_modE (z : Z) : Z.even z = (z mod 2 =? 0)%ZZ.
Proof. by rewrite (Zmod_even z); case: (Z.even z). Qed.

Lemma odd_modE (z : Z) : Z.odd z = (z mod 2 =? 1)%ZZ.
Proof. by rewrite (Zmod_odd z); case: (Z.odd z). Qed.

(** What a successful construction has computed. *)
Lemma initP (order : Z) (smooth_time : float) (s : t F) :
  __init__ F order smooth_time = inr s ->
  exists c : Z,
    [/\ Py.math_ceil (smooth_time / REPORT_TIME)%float = inr c,
        frame_length s =
          (if (Z.max order c mod 2 =? 0)%ZZ then Z.max order c + 1
           else Z.max order c)%ZZ,
        (order + 2 <= frame_length s)%ZZ &
        window_length s = ((frame_length s - 1) / 2)%ZZ] /\
    _values s = nseq (Z.to_nat (frame_length s)) 0 /\
    mx_row (pinv (np_mat F (sg_rows order (window_length s)))) 0
      = inr (coeff_m s).
Proof.
rewrite /__init__; case ceil_c: (Py.math_ceil _) => [//|c] /=.
case: Z.ltb_spec => // le_fl.
case coeffE: (mx_row _ _) => [//|coeff] /= [<-] /=.
by exists c; split.
Qed.

Lemma ceil_09 : Py.math_ceil (0.9 / REPORT_TIME)%float = inr 3%ZZ.
Proof. by vm_compute. Qed.

Lemma ceil_05 : Py.math_ceil (0.5 / REPORT_TIME)%float = inr 2%ZZ.
Proof. by vm_compute. Qed.

(** The constructor in terms of the ceiling it computed. *)
Lemma init_ceil (order c : Z) (smooth_time : float) :
  Py.math_ceil (smooth_time / REPORT_TIME)%float = inr c ->
  let m := Z.max order c in
  let fl := (if (m mod 2 =? 0)%ZZ then m + 1 else m)%ZZ in
  let w := ((fl - 1) / 2)%ZZ in
  __init__ F order smooth_time =
    if (fl <? order + 2)%ZZ then inl TypeError
    else
      coeff <- mx_row (pinv (np_mat F (sg_rows order w))) 0 ;;
      ret (Make fl w (nseq (Z.to_nat fl) 0) coeff).
Proof. by rewrite /__init__ => ->. Qed.

(** Row 0 of the pseudo-inverse exists as soon as the matrix has a column. *)
Lemma sg_coeffs_defined (order w : Z) :
  (0 <= order)%ZZ -> (0 <= w)%ZZ ->
  exists coeff, mx_row (pinv (np_mat F (sg_rows order w))) 0 = inr coeff.
Proof.
move=> order0 w0.
have pos : (0 < size (head [::] (sg_rows order w)))%N.
  by rewrite size_head_sg_rows //; apply/ssrnat.ltP; lia.
by exists [seq pinv (np_mat F (sg_rows order w)) (Ordinal pos) j | j <- enum 'I__];
  rewrite -mx_row_ord.
Qed.

Theorem init_order2_time09 :
  Py.math_ceil (0.9 / REPORT_TIME)%float = inr 3%ZZ /\
  __init__ F 2 0.9%float = inl TypeError.
Proof.
by split; [exact: ceil_09 | rewrite /__init__ ceil_09].
Qed.

(** C5: the frame length of a constructed filter. *)
Theorem init_frame_length (order : Z) (smooth_time : float) (s : t F) :
  __init__ F order smooth_time = inr s ->
  exists c : Z,
    [/\ Py.math_ceil (smooth_time / REPORT_TIME)%float = inr c,
        frame_length s =
          (if Z.even (Z.max order c) then Z.max order c + 1
           else Z.max order c)%ZZ,
        Z.odd (frame_length s) /\ (order + 2 <= frame_length s)%ZZ &
        window_length s = ((frame_length s - 1) / 2)%ZZ /\
        frame_length s = (2 * window_length s + 1)%ZZ].
Proof.
move=> /initP [c [[ceil_c flE le_fl wE] _]]; exists c.
have odd_fl : Z.odd (frame_length s).
  rewrite flE -even_modE -Z.negb_even.
  by case: ifP => [|->//]; rewrite Z.even_add => ->.
split=> //; first by rewrite flE even_modE.
by move: odd_fl; rewrite wE odd_modE => /Z.eqb_spec; zsolve.
Qed.

(** The frame length derived from [order] and the ceiling [c]. *)
Definition odd_frame (order c : Z) : Z :=
  let m := Z.max order c in if (m mod 2 =? 0)%ZZ then (m + 1)%ZZ else m.

Lemma init_rejected (order c : Z) (smooth_time : float) :
  Py.math_ceil (smooth_time / REPORT_TIME)%float = inr c ->
  (odd_frame order c < order + 2)%ZZ ->
  __init__ F order smooth_time = inl TypeError.
Proof.
move=> ceil_c lt_fl; rewrite (init_ceil _ ceil_c) /=.
by move: lt_fl; rewrite /odd_frame /=; case: Z.ltb_spec => //; lia.
Qed.

Lemma init_accepted (order c : Z) (smooth_time : float) :
  (0 <= order)%ZZ ->
  Py.math_ceil (smooth_time / REPORT_TIME)%float = inr c ->
  (order + 2 <= odd_frame order c)%ZZ ->
  exists2 s, __init__ F order smooth_time = inr s
           & frame_length s = odd_frame order c.
Proof.
move=> order0 ceil_c le_fl; rewrite (init_ceil _ ceil_c) /=.
move: le_fl; rewrite /odd_frame /=; set fl := if _ then _ else _ => le_fl.
have -> : (fl <? order + 2)%ZZ = false by apply/Z.ltb_spec0; lia.
have [|coeff ->] := @sg_coeffs_defined order ((fl - 1) / 2) order0.
  by zsolve.
by eexists; [reflexivity|].
Qed.

(** C4, as the code has it: a ceiling below [order + 2] is rejected unless
    [order] is odd and the ceiling is [order + 1]; forcing the frame length
    odd then reaches [order + 2] and the construction goes through. *)
Theorem init_short_window (order c : Z) (smooth_time : float) :
  (0 <= order)%ZZ ->
  Py.math_ceil (smooth_time / REPORT_TIME)%float = inr c ->
  (c < order + 2)%ZZ ->
  if Z.odd order && (c =? order + 1)%ZZ
  then exists2 s, __init__ F order smooth_time = inr s
                & frame_length s = (order + 2)%ZZ
  else __init__ F order smooth_time = inl TypeError.
Proof.
move=> order0 ceil_c c_lt.
have flE : if Z.odd order && (c =? order + 1)%ZZ
           then odd_frame order c = (order + 2)%ZZ
           else (odd_frame order c < order + 2)%ZZ.
  rewrite /odd_frame odd_modE.
  by case: (Z.eqb_spec (order mod 2) 1); case: (Z.eqb_spec c (order + 1));
    case: (Z.eqb_spec (Z.max order c mod 2) 0); cbv [andb]; zsolve.
case: ifP flE => _ flE; last exact: init_rejected ceil_c flE.
by rewrite -flE; apply: init_accepted => //; rewrite flE; lia.
Qed.

End Construction.

Lemma init_short_window_witness :
  __init__ rat 2 0.9%float = inl TypeError.
Proof.
have := @init_short_window rat 2 3 0.9%float Z.le_0_2 ceil_09 (erefl Lt).
exact.
Defined.

(** C4 as stated fails: order 1 with a ceiling of 2 is accepted. *)
Lemma init_order1_time05_accepted :
  [/\ (0 <= 1)%ZZ, Py.math_ceil (0.5 / REPORT_TIME)%float = inr 2%ZZ,
      (2 < 1 + 2)%ZZ & __init__ rat 1 0.5%float <> inl TypeError].
Proof.
have [//|s eq_s _] := @init_accepted rat 1 2 0.5%float Z.le_0_1 ceil_05.
by split; [| exact: ceil_05 | | rewrite eq_s].
Qed.
